(** * torchhydro: datasets/data_sets.py

    A shallow embedding of the gap filler [_fill_gaps_da], of the window
    index built by [BaseDataset._create_lookup_table], of sample extraction
    ([BaseDataset.__getitem__]) and of the [__len__] methods of the dataset
    classes, with the properties the specification states about them. *)

From Stdlib Require Import ZArith QArith Reals Lra Lia.
From stdpp Require Import gmap strings list fin_maps sorting.

Local Open Scope Z_scope.

(** ** Python results

    A Python call either returns a value or raises; the exceptions the
    module can raise are listed by name. *)

Inductive exn : Type :=
  | ValueError (msg : string)
  | NotImplementedError (msg : string)
  | AssertionError
  | IndexError
  | KeyError
  | TypeError
  | AttributeError
  | ZeroDivisionError
  | OverflowError.

Definition result (A : Type) : Type := (exn + A)%type.

Definition raise {A : Type} (e : exn) : result A := inl e.

#[global] Instance result_ret : MRet result := λ A, inr.
#[global] Instance result_bind : MBind result :=
  λ A B k m, match m with inl e => inl e | inr a => k a end.

(** ** Indexing and ranges *)

(** [range(lo, hi)]: the integers [lo, lo+1, ..., hi-1], empty when
    [hi <= lo]. *)
Definition py_range (lo hi : Z) : list Z := seqZ lo (hi - lo).

(** [a[i]] on a one-dimensional array: a negative index counts from the
    end, an index outside [-len, len) raises [IndexError]. *)
Definition np_getitem {A : Type} (a : list A) (i : Z) : result A :=
  let n := Z.of_nat (length a) in
  let j := if decide (i < 0) then n + i else i in
  if decide (0 ≤ j < n)
  then match a !! Z.to_nat j with Some v => mret v | None => raise IndexError end
  else raise IndexError.

(** ** The window index

    [_create_lookup_table] reads the basin list, [rho], [warmup_length]
    and the time axis of [y]; it stores [dict(enumerate(lookup))] and its
    length. Basin identifiers are strings, time stamps are integers (ticks
    of the time axis' resolution). *)

Abbreviation basin_id := string (only parsing).
Abbreviation timestamp := Z (only parsing).

Module LookupTable.

(** The generator handed to [lookup.extend] for one basin:
    [(basin, dates[f]) for f in range(warmup_length, time_length)
     if f < time_length - rho + 1]. *)
Definition offsets (rho warmup_length time_length : Z) : list Z :=
  filter (λ f, f < time_length - rho + 1) (py_range warmup_length time_length).

Definition basin_entries (rho warmup_length : Z) (dates : list timestamp)
    (basin : basin_id) : result (list (basin_id * timestamp)) :=
  let time_length := Z.of_nat (length dates) in
  mapM (λ f, d ← np_getitem dates f; mret (basin, d))
       (offsets rho warmup_length time_length).

(** The loop over the basins, appending to [lookup]. *)
Definition lookup_list (basins : list basin_id) (rho warmup_length : Z)
    (dates : list timestamp) : result (list (basin_id * timestamp)) :=
  per_basin ← mapM (basin_entries rho warmup_length dates) basins;
  mret (mjoin per_basin).

(** [dict(enumerate(lookup))] and [len(self.lookup_table)]. *)
Definition enumerate_dict {A : Type} (l : list A) : gmap nat A := map_seq 0%nat l.

Definition create (basins : list basin_id) (rho warmup_length : Z)
    (dates : list timestamp)
    : result (gmap nat (basin_id * timestamp) * nat) :=
  entries ← lookup_list basins rho warmup_length dates;
  let lookup_table := enumerate_dict entries in
  mret (lookup_table, size lookup_table).

(** The entries in closed form, for a warmup length that is not negative:
    [date_at dates f] is [dates[f]]. *)
Definition date_at (dates : list timestamp) (f : Z) : timestamp :=
  default 0 (dates !! Z.to_nat f).

Definition entries (basins : list basin_id) (rho warmup_length : Z)
    (dates : list timestamp) : list (basin_id * timestamp) :=
  mjoin ((λ b, (λ f, (b, date_at dates f))
                 <$> offsets rho warmup_length (Z.of_nat (length dates)))
           <$> basins).

End LookupTable.

(** ** Labelled arrays

    A value is a number or NaN. Numbers are exact rationals here: the
    embedding does not model the rounding, the infinities or the overflow
    of the arrays' floating-point cells. *)

Abbreviation value := (option Q) (only parsing).

Definition isnan (x : value) : bool :=
  match x with None => true | Some _ => false end.

(** An [xr.DataArray] with the dimensions (basin, time, variable):
    [da_values] holds, for every basin, a matrix with one row per time step
    and one cell per variable. [da_ticks_per_day] is the resolution of the
    time coordinate (1 for [datetime64[D]], 86400 * 10^9 for
    [datetime64[ns]]). *)
Record DataArray : Type := mkDataArray {
  da_basin : list basin_id;
  da_time : list timestamp;
  da_ticks_per_day : Z;
  da_variable : list string;
  da_values : list (list (list value));
}.

Abbreviation matrix := (list (list (option Q))) (only parsing).



Definition set_values (da : DataArray) (vals : list matrix) : DataArray :=
  mkDataArray (da_basin da) (da_time da) (da_ticks_per_day da)
              (da_variable da) vals.

(** [da.shape[0]] *)
Definition shape0 (da : DataArray) : nat := length (da_values da).

(** The part of xarray the module calls without looking inside:
    [xr.Dataset] as the data source returns it, its conversion
    [to_array(dim="variable")] to an array in physical units, attributes,
    and [interpolate_na(dim="time", fill_value="extrapolate")] on one
    series, given the time coordinate of the series. *)
Class XarrayLib : Type := {
  xr_Dataset : Type;
  xr_RawArray : Type;
  ds_variables : xr_Dataset → list string;
  ds_attrs : xr_Dataset → string → gmap string string;
  to_array : xr_Dataset → xr_RawArray;
  set_attrs : xr_RawArray → string → gmap string string → xr_RawArray;
  interpolate_na : list timestamp → list value → list value
}.

(** ** The gap filler: [_fill_gaps_da] *)

Module GapFiller.
Section with_xarray.
Context `{!XarrayLib}.

Definition cell (row : list value) (v : nat) : value := default None (row !! v).

Definition column (m : matrix) (v : nat) : list value := (λ row, cell row v) <$> m.

(** [m.interpolate_na(dim="time", ...)] on a (time, variable) matrix:
    every variable's series is interpolated on its own. *)
Definition interpolate_na_time (times : list timestamp) (m : matrix) : matrix :=
  imap (λ t row,
          imap (λ v x, default x (interpolate_na times (column m v) !! t)) row)
       m.

(** [np.where(~np.isnan(a))[0]] for a two-dimensional [a]: the row index
    of every cell that is not NaN, in row-major order. *)
Definition where_not_nan_rows (a : matrix) : list nat :=
  mjoin (imap (λ t row,
                 replicate (length (filter (λ x, isnan x = false) row)) t)
              a).

(** [np.unique(l).tolist()]: the elements of [l], sorted, each once. *)
Definition np_unique (l : list nat) : list nat :=
  merge_sort Nat.le (remove_dups l).

(** [a[idx]] with a list of row positions. *)
Definition take_rows {A : Type} (idx : list nat) (a : list A) : list A :=
  omap (λ t, a !! t) idx.

(** [a[idx] = new] with a list of row positions. *)
Definition assign_rows {A : Type} (idx : list nat) (new : list A)
    (a : list A) : list A :=
  foldl (λ acc tr, <[tr.1 := tr.2]> acc) a (zip idx new).

(** The first loop of the [et_ssm_ignore] branch. *)
Definition all_non_nan_idx (vals : list matrix) : list nat :=
  foldl (λ acc m, acc ++ where_not_nan_rows m) [] vals.

(** The body of its second loop, for basin [i]. *)
Definition et_ssm_ignore_basin (times : list timestamp)
    (non_nan_idx : list nat) (vals : list matrix) (i : nat) : list matrix :=
  match vals !! i with
  | None => vals
  | Some da_i =>
      let targ_i := take_rows non_nan_idx da_i in
      let filled :=
        interpolate_na_time (take_rows non_nan_idx times) targ_i in
      <[i := assign_rows non_nan_idx filled da_i]> vals
  end.

Definition fill_et_ssm_ignore (da : DataArray) : DataArray :=
  let non_nan_idx := np_unique (all_non_nan_idx (da_values da)) in
  set_values da
    (foldl (et_ssm_ignore_basin (da_time da) non_nan_idx)
           (da_values da) (seq 0 (shape0 da))).

(** The [mean] branch. [nanmean] is what [mean(dim="basin")] computes for
    one (time, variable) slot: the mean of the cells that are not NaN,
    NaN when there is none. *)
Definition nanmean (l : list value) : value :=
  match omap (λ x : value, x) l with
  | [] => None
  | xs => Some (foldr Qplus 0%Q xs / inject_Z (Z.of_nat (length xs)))%Q
  end.

Definition fillna (x fill : value) : value :=
  match x with None => fill | Some _ => x end.

(** [da.sel(variable=var)]: a (basin, time) matrix. *)
Definition sel_variable (vals : list matrix) (v : nat) : matrix :=
  (λ m, column m v) <$> vals.

(** [var_data.mean(dim="basin")]: one value per time step. *)
Definition mean_over_basin (ntime : nat) (var_data : matrix) : list value :=
  (λ t, nanmean ((λ series, cell series t) <$> var_data)) <$> seq 0 ntime.

(** [var_data.fillna(mean_val)], [mean_val] broadcast over the basins. *)
Definition fillna_time (var_data : matrix) (mean_val : list value) : matrix :=
  (λ series, imap (λ t x, fillna x (cell mean_val t)) series) <$> var_data.

(** [da.loc[dict(variable=var)] = filled_data] *)
Definition assign_variable (vals : list matrix) (v : nat)
    (filled_data : matrix) : list matrix :=
  imap (λ b m, imap (λ t row, <[v := cell (default [] (filled_data !! b)) t]> row) m)
       vals.

(** The body of the loop over [da["variable"].values]. *)
Definition fill_mean_variable (ntime : nat) (vals : list matrix) (v : nat)
    : list matrix :=
  let var_data := sel_variable vals v in
  let mean_val := mean_over_basin ntime var_data in
  let filled_data := fillna_time var_data mean_val in
  assign_variable vals v filled_data.

Definition fill_mean (da : DataArray) : DataArray :=
  set_values da
    (foldl (fill_mean_variable (length (da_time da)))
           (da_values da) (seq 0 (length (da_variable da)))).

(** The [interpolate] branch. *)
Definition interpolate_basin (times : list timestamp) (vals : list matrix)
    (i : nat) : list matrix :=
  match vals !! i with
  | None => vals
  | Some da_i => <[i := interpolate_na_time times da_i]> vals
  end.

Definition fill_interpolate (da : DataArray) : DataArray :=
  set_values da
    (foldl (interpolate_basin (da_time da)) (da_values da)
           (seq 0 (shape0 da))).

(** [_fill_gaps_da(da, fill_nan)]. The array is filled in place and
    returned; the embedding returns the filled array. The [isinstance]
    assertion holds by typing. *)
Definition _fill_gaps_da (da : option DataArray) (fill_nan : option string)
    : result (option DataArray) :=
  match fill_nan, da with
  | None, _ | _, None => mret da
  | Some name, Some a =>
      if decide (name = "et_ssm_ignore") then mret (Some (fill_et_ssm_ignore a))
      else if decide (name = "mean") then mret (Some (fill_mean a))
      else if decide (name = "interpolate") then mret (Some (fill_interpolate a))
      else raise (NotImplementedError ("fill_nan " +:+ name +:+ " not implemented"))
  end.

End with_xarray.





(** The policy names [_fill_gaps_da] knows. *)
Definition known_policies : list string := ["interpolate"; "mean"; "et_ssm_ignore"].

End GapFiller.

(** ** Computations on a state

    A computation runs on a state (the object [self], or the trace of calls
    made so far) and may raise; the state it leaves behind is part of its
    outcome. *)

Definition prog (S A : Type) : Type := S → result A * S.

#[global] Instance prog_ret {S : Type} : MRet (prog S) := λ A a s, (inr a, s).
#[global] Instance prog_bind {S : Type} : MBind (prog S) :=
  λ A B k m s,
    match m s with
    | (inl e, s') => (inl e, s')
    | (inr a, s') => k a s'
    end.

(** A computation that does not touch the state. *)
Definition lift {S A : Type} (r : result A) : prog S A := λ s, (r, s).

(** [self.attr] *)
Definition getattr {S A : Type} (attr : S → A) : prog S A :=
  λ self, (inr (attr self), self).

(** ** Static attributes, configuration, data source, scaler *)

(** The attribute array [c], with the dimensions (basin, variable). *)
Record AttrArray : Type := mkAttrArray {
  aa_basin : list basin_id;
  aa_variable : list string;
  aa_values : matrix;
}.

(** [data_params]: the keys this module reads, each absent ([None]) or
    present; reading an absent key raises [KeyError]. *)
Record data_params : Type := mkDataParams {
  dp_target_cols : option (list string);
  dp_relevant_cols : option (list string);
  dp_constant_cols : option (list string);
  dp_target_rm_nan : option bool;
  dp_relevant_rm_nan : option bool;
  dp_constant_rm_nan : option bool;
  dp_forecast_history : option Z;
  dp_warmup_length : option Z;
  dp_batch_size : option Z;
}.

Definition dict_get {A : Type} (entry : option A) : result A :=
  match entry with Some a => mret a | None => raise KeyError end.

(** What [wrap_t_s_dict] returns. *)
Record t_s_dict : Type := mkTsDict {
  sites_id : list basin_id;
  t_final_range : list string;
}.

(** The data source: an object with three reading methods, each of which
    may raise and may return [None]. *)
Record HydroDataset `{!XarrayLib} : Type := mkHydroDataset {
  read_ts_xrdataset :
    list basin_id → list string → list string → result (option xr_Dataset);
  read_attr_xrdataset :
    list basin_id → list string → bool → result (option xr_Dataset);
  read_area : list basin_id → result xr_Dataset;
}.

(** Calls to the data source are recorded in a trace: construction is a
    computation on the trace. *)
Inductive source_call : Type :=
  | Call_read_ts_xrdataset (sites : list basin_id) (t_range cols : list string)
  | Call_read_attr_xrdataset (sites : list basin_id) (cols : list string)
  | Call_read_area (sites : list basin_id).

Abbreviation traced := (prog (list source_call)) (only parsing).

Definition call {A : Type} (c : source_call) (response : result A) : traced A :=
  λ tr, (response, tr ++ [c]).

(** What [torchhydro.datasets.data_scalers] provides: [wrap_t_s_dict],
    [unify_streamflow_unit] and the [ScalerHub] object with its attributes
    [x], [y], [c] and [target_scaler]. *)
Class DataScalers `{!XarrayLib} : Type := {
  target_scaler_t : Type;
  wrap_t_s_dict : HydroDataset → data_params → string → result t_s_dict;
  unify_streamflow_unit : xr_Dataset → xr_Dataset → result xr_Dataset;
  ScalerHub_t : Type;
  ScalerHub :
    option xr_RawArray → option xr_RawArray → option xr_RawArray →
    data_params → string → HydroDataset → result ScalerHub_t;
  hub_x : ScalerHub_t → option DataArray;
  hub_y : ScalerHub_t → option DataArray;
  hub_c : ScalerHub_t → option AttrArray;
  hub_target_scaler : ScalerHub_t → target_scaler_t;
}.

(** ** numpy and xarray operations of sample extraction *)

Module Numpy.

(** Position of a label on a coordinate; [KeyError] when it is absent. *)
Definition label_index (labels : list basin_id) (b : basin_id) : result nat :=
  match list_find (λ l, l = b) labels with
  | Some (i, _) => mret i
  | None => raise KeyError
  end.

(** [da.sel(basin=b)]: the (time, variable) matrix of one basin. *)
Definition sel_basin (da : DataArray) (b : basin_id) : result matrix :=
  i ← label_index (da_basin da) b;
  match da_values da !! i with
  | Some m => mret m
  | None => raise KeyError
  end.

(** [.sel(time=slice(lo, hi))]: label slices include both ends. *)
Definition sel_time_slice (times : list timestamp) (lo hi : timestamp)
    (m : matrix) : matrix :=
  (filter (λ tr, lo ≤ tr.1 ∧ tr.1 ≤ hi) (zip times m)).*2.

(** [time - np.timedelta64(n)]: a timedelta without unit takes the unit
    of the time stamp it is combined with. *)
Definition minus_timedelta64 (time : timestamp) (n : Z) : timestamp := time - n.

(** [time + np.timedelta64(n, "D")] *)
Definition plus_timedelta64_D (ticks_per_day : Z) (time : timestamp) (n : Z)
    : timestamp :=
  time + n * ticks_per_day.

(** [np.tile(c, (reps, 1))] for a one-dimensional [c]. *)
Definition tile_rows (c : list value) (reps : Z) : result matrix :=
  if decide (reps < 0) then raise (ValueError "negative dimensions are not allowed")
  else mret (replicate (Z.to_nat reps) c).

(** [np.concatenate((x, c), axis=1)] for two matrices. *)
Definition concatenate_axis1 (x c : matrix) : result matrix :=
  if decide (length x = length c) then mret (zip_with app x c)
  else raise (ValueError "all the input array dimensions except for the concatenation axis must match exactly").

(** The shape of a matrix all of whose rows have [ncols] cells. *)
Definition has_shape (m : matrix) (nrows ncols : Z) : Prop :=
  Z.of_nat (length m) = nrows ∧ Forall (λ row, Z.of_nat (length row) = ncols) m.

End Numpy.

(** ** [BaseDataset] *)

Module BaseDataset.
Section with_externals.
Context `{!XarrayLib, !DataScalers}.

(** The attributes of a constructed dataset. *)
Record self_t : Type := mkSelf {
  self_data_source : HydroDataset;
  self_data_params : data_params;
  self_loader_type : string;
  self_t_s_dict : t_s_dict;
  self_x : option DataArray;
  self_y : option DataArray;
  self_c : option AttrArray;
  self_train_mode : bool;
  self_rho : Z;
  self_target_scaler : target_scaler_t;
  self_warmup_length : Z;
  self_lookup_table : gmap nat (basin_id * timestamp);
  self_num_samples : nat;
}.

Definition _trans2da_and_setunits (ds : xr_Dataset) : xr_RawArray :=
  let result := to_array ds in
  let units_dict :=
    foldl (λ d var,
             match ds_attrs ds var !! "units" with
             | Some u => <[var := u]> d
             | None => d
             end)
          (∅ : gmap string string) (ds_variables ds) in
  set_attrs result "units" units_dict.

(** The mean policy reads [c] through its basin and variable dimensions
    only: [c] is handed to the gap filler as a series with one time
    slot. *)
Definition attrs_as_series (c : AttrArray) : DataArray :=
  mkDataArray (aa_basin c) [0] 1 (aa_variable c) ((λ row, [row]) <$> aa_values c).

Definition series_as_attrs (c : AttrArray) (da : DataArray) : AttrArray :=
  mkAttrArray (aa_basin c) (aa_variable c)
              ((λ m, default [] (m !! 0%nat)) <$> da_values da).

Definition fill_attrs (c : option AttrArray) (fill_nan : option string)
    : result (option AttrArray) :=
  match c with
  | None => _ ← GapFiller._fill_gaps_da None fill_nan; mret None
  | Some a =>
      r ← GapFiller._fill_gaps_da (Some (attrs_as_series a)) fill_nan;
      mret (series_as_attrs a <$> r)
  end.

(** [kill_nan(x, c, y)] returns [(x, y, c)], filled in place. *)
Definition kill_nan (data_params : data_params)
    (x : option DataArray) (c : option AttrArray) (y : option DataArray)
    : result (option DataArray * option DataArray * option AttrArray) :=
  y_rm_nan ← dict_get (dp_target_rm_nan data_params);
  x_rm_nan ← dict_get (dp_relevant_rm_nan data_params);
  c_rm_nan ← dict_get (dp_constant_rm_nan data_params);
  x ← (if x_rm_nan : bool then GapFiller._fill_gaps_da x (Some "interpolate") else mret x);
  y ← (if y_rm_nan : bool then GapFiller._fill_gaps_da y (Some "interpolate") else mret y);
  c ← (if c_rm_nan : bool then fill_attrs c (Some "mean") else mret c);
  mret (x, y, c).

(** [_create_lookup_table]: [self.y["time"]] needs [y]. *)
Definition _create_lookup_table (ts : t_s_dict) (rho warmup_length : Z)
    (y : option DataArray) : result (gmap nat (basin_id * timestamp) * nat) :=
  let basins := sites_id ts in
  match y with
  | None => raise TypeError
  | Some y => LookupTable.create basins rho warmup_length (da_time y)
  end.

Definition _load_data (data_source : HydroDataset) (data_params : data_params)
    (loader_type : string) : traced self_t :=
  let train_mode := bool_decide (loader_type = "train") in
  ts ← lift (wrap_t_s_dict data_source data_params loader_type);
  target_cols ← lift (dict_get (dp_target_cols data_params));
  data_flow_ds ←
    call (Call_read_ts_xrdataset (sites_id ts) (t_final_range ts) target_cols)
         (read_ts_xrdataset data_source (sites_id ts) (t_final_range ts) target_cols);
  relevant_cols ← lift (dict_get (dp_relevant_cols data_params));
  data_forcing_ds ←
    call (Call_read_ts_xrdataset (sites_id ts) (t_final_range ts) relevant_cols)
         (read_ts_xrdataset data_source (sites_id ts) (t_final_range ts) relevant_cols);
  constant_cols ← lift (dict_get (dp_constant_cols data_params));
  data_attr_ds ←
    call (Call_read_attr_xrdataset (sites_id ts) constant_cols)
         (read_attr_xrdataset data_source (sites_id ts) constant_cols true);
  data_flow ←
    match data_flow_ds with
    | Some ds =>
        area ← call (Call_read_area (sites_id ts)) (read_area data_source (sites_id ts));
        ds' ← lift (unify_streamflow_unit ds area);
        mret (Some (_trans2da_and_setunits ds'))
    | None => mret None
    end;
  let data_forcing := _trans2da_and_setunits <$> data_forcing_ds in
  let data_attr := _trans2da_and_setunits <$> data_attr_ds in
  scaler_hub ←
    lift (ScalerHub data_flow data_forcing data_attr data_params loader_type data_source);
  xyc ← lift (kill_nan data_params (hub_x scaler_hub) (hub_c scaler_hub) (hub_y scaler_hub));
  let '(x, y, c) := xyc in
  rho ← lift (dict_get (dp_forecast_history data_params));
  warmup_length ← lift (dict_get (dp_warmup_length data_params));
  table ← lift (_create_lookup_table ts rho warmup_length y);
  mret (mkSelf data_source data_params loader_type ts x y c train_mode rho
               (hub_target_scaler scaler_hub) warmup_length table.1 table.2).

Definition __init__ (data_source : HydroDataset) (data_params : data_params)
    (loader_type : string) : traced self_t :=
  if decide (loader_type ∈ ["train"; "valid"; "test"])
  then _load_data data_source data_params loader_type
  else lift (raise (ValueError "'loader_type' must be one of 'train', 'valid' or 'test' ")).

Definition __len__ (self : self_t) : nat := self_num_samples self.

(** A sample: the input window and the target window, as matrices with
    one row per time step (the arrays after [.T]); the conversion to
    tensors keeps shape and cells. *)
Definition sample : Type := (matrix * matrix)%type.

Definition window (da : option DataArray) (basin : basin_id)
    (lo hi : timestamp) : result matrix :=
  match da with
  | None => raise AttributeError
  | Some a =>
      m ← Numpy.sel_basin a basin;
      mret (Numpy.sel_time_slice (da_time a) lo hi m)
  end.

Definition attrs_row (c : AttrArray) (basin : basin_id) : result (list value) :=
  i ← Numpy.label_index (aa_basin c) basin;
  match aa_values c !! i with
  | Some row => mret row
  | None => raise KeyError
  end.

(** The [time] of a lookup entry is an element of the time axis of [y]
    and has its resolution; [x] and [y] count their time stamps in the same
    unit. *)
Definition ticks_per_day (self : self_t) : Z :=
  from_option da_ticks_per_day 1 (self_y self).

Definition __getitem__ (item : Z) : prog self_t sample :=
  table ← getattr self_lookup_table;
  entry ← lift
    (if decide (0 ≤ item)
     then match table !! Z.to_nat item with
          | Some e => mret e
          | None => raise KeyError
          end
     else raise KeyError);
  let '(basin, time) := entry in
  seq_length ← getattr self_rho;
  warmup_length ← getattr self_warmup_length;
  day ← getattr ticks_per_day;
  x_arr ← getattr self_x;
  x ← lift
    (window x_arr basin
       (Numpy.minus_timedelta64 time warmup_length)
       (Numpy.plus_timedelta64_D day time (seq_length - 1)));
  c_arr ← getattr self_c;
  x ← lift
    (match c_arr with
     | Some c =>
         if decide (0 < length (aa_variable c))%nat then
           c ← attrs_row c basin;
           c ← Numpy.tile_rows c seq_length;
           Numpy.concatenate_axis1 x c
         else mret x
     | None => mret x
     end);
  y_arr ← getattr self_y;
  y ← lift
    (window y_arr basin time
       (Numpy.plus_timedelta64_D day time (seq_length - 1)));
  mret (x, y).

End with_externals.
End BaseDataset.

(** ** [BasinSingleFlowDataset] *)

Module BasinSingleFlowDataset.
Section with_externals.
Context `{!XarrayLib, !DataScalers}.

Definition __init__ (data_source : HydroDataset) (data_params : data_params)
    (loader_type : string) : traced BaseDataset.self_t :=
  BaseDataset.__init__ data_source data_params loader_type.

(** [ys[-1, :]]: the last time step of the target window. *)
Definition __getitem__ (index : Z) : prog BaseDataset.self_t (matrix * list value) :=
  xc_ys ← BaseDataset.__getitem__ index;
  y ← lift (np_getitem xc_ys.2 (-1));
  mret (xc_ys.1, y).

Definition __len__ (self : BaseDataset.self_t) : nat :=
  BaseDataset.self_num_samples self.

End with_externals.
End BasinSingleFlowDataset.

(** ** [BasinFlowDataset] *)

Module BasinFlowDataset.
Section with_externals.
Context `{!XarrayLib, !DataScalers}.

Definition __init__ (data_source : HydroDataset) (data_params : data_params)
    (loader_type : string) : traced BaseDataset.self_t :=
  BaseDataset.__init__ data_source data_params loader_type.

Definition __len__ (self : BaseDataset.self_t) : nat :=
  if BaseDataset.self_train_mode self
  then BaseDataset.self_num_samples self
  else length (sites_id (BaseDataset.self_t_s_dict self)).

End with_externals.
End BasinFlowDataset.

(** ** [KuaiDataset] *)

Module KuaiDataset.

(** [int(batch_size / 10)]: the quotient rounded towards zero (the float
    division is exact enough for that below 2^53). *)
Definition int_div10 (batch_size : Z) : Z := batch_size ÷ 10.

(** The loop
    [while batch_size * rho >= ngrid * nt: batch_size = int(batch_size / 10)]
    run for at most [fuel] tests of its condition. It returns the batch
    size at exit together with the values the body assigned, [None] when
    the fuel runs out first. *)
Fixpoint shrink_loop (fuel : nat) (rho ngrid nt batch_size : Z)
    : option (Z * list Z) :=
  match fuel with
  | O => None
  | S fuel' =>
      if decide (batch_size * rho >= ngrid * nt) then
        let batch_size' := int_div10 batch_size in
        r ← shrink_loop fuel' rho ngrid nt batch_size';
        Some (r.1, batch_size' :: r.2)
      else Some (batch_size, [])
  end.

(** The loop followed by [batch_size = max(batch_size, 1)]. *)
Definition shrunk_batch_size (fuel : nat) (rho ngrid nt batch_size : Z)
    : option Z :=
  r ← shrink_loop fuel rho ngrid nt batch_size;
  Some (Z.max r.1 1).

(** [np.ceil] followed by [int] on a real number. *)
Definition np_ceil (r : R) : Z := 1 - up (- r).

(** [int(np.ceil(np.log(0.01) / np.log(1 - batch_size * rho / ngrid /
    (nt - warmup_length))))] over the real numbers. The divisions by zero,
    the logarithm of a negative number (NaN), of zero (minus infinity) and
    of one (zero, then a quotient of minus infinity) have their Python
    outcomes. *)
Definition n_iter_ep (batch_size rho warmup_length ngrid nt : Z) : result Z :=
  if decide (ngrid = 0) then raise ZeroDivisionError
  else if decide (nt - warmup_length = 0) then raise ZeroDivisionError
  else
    let arg : Q :=
      (1 - inject_Z (batch_size * rho) / inject_Z ngrid
             / inject_Z (nt - warmup_length))%Q in
    match (arg ?= 0)%Q with
    | Lt => raise (ValueError "cannot convert float NaN to integer")
    | Eq => mret 0
    | Gt =>
        match (arg ?= 1)%Q with
        | Eq => raise OverflowError
        | _ =>
            mret (np_ceil
                    (ln (1 / 100)
                     / ln (1 - IZR batch_size * IZR rho / IZR ngrid
                               / IZR (nt - warmup_length)))%R)
        end
    end.

(** The training branch of [__len__] on the numbers it reads. *)
Definition virtual_length (fuel : nat) (batch_size rho warmup_length ngrid nt : Z)
    : option (result Z) :=
  batch_size ← shrunk_batch_size fuel rho ngrid nt batch_size;
  Some (n ← n_iter_ep batch_size rho warmup_length ngrid nt;
        if decide (n >= 1) then mret (n * batch_size) else raise AssertionError).

Section with_externals.
Context `{!XarrayLib, !DataScalers}.

Definition __init__ (data_source : HydroDataset) (data_params : data_params)
    (loader_type : string) : traced BaseDataset.self_t :=
  BaseDataset.__init__ data_source data_params loader_type.

(** [__len__]; [None] when the loop does not end within [fuel]. *)
Definition __len__ (fuel : nat) (self : BaseDataset.self_t) : option (result Z) :=
  if negb (BaseDataset.self_train_mode self)
  then Some (mret (Z.of_nat (length (sites_id (BaseDataset.self_t_s_dict self)))))
  else
    match dict_get (dp_batch_size (BaseDataset.self_data_params self)) with
    | inl e => Some (inl e)
    | inr batch_size =>
        let rho := BaseDataset.self_rho self in
        match dict_get (dp_warmup_length (BaseDataset.self_data_params self)) with
        | inl e => Some (inl e)
        | inr warmup_length =>
            match BaseDataset.self_y self with
            | None => Some (raise AttributeError)
            | Some y =>
                let ngrid := Z.of_nat (length (da_basin y)) in
                let nt := Z.of_nat (length (da_time y)) in
                virtual_length fuel batch_size rho warmup_length ngrid nt
            end
        end
    end.

End with_externals.
End KuaiDataset.

(** ** A concrete instance

    Linear interpolation with extrapolation for [interpolate_na], an
    identity scaler, and a data source with three basins and twenty daily
    time steps. The examples and the concrete runs below use it. *)

Module Fixture.

(** Linear interpolation through the anchors [pts] (sorted by time); past
    either end, the line through the two nearest anchors. *)
Fixpoint interp1d (pts : list (timestamp * Q)) (t : timestamp) : value :=
  match pts with
  | (t0, y0) :: (((t1, y1) :: rest) as tl) =>
      if decide (t ≤ t1 ∨ rest = [])
      then Some (y0 + (y1 - y0) * (inject_Z (t - t0) / inject_Z (t1 - t0)))%Q
      else interp1d tl t
  | _ => None
  end.

(** A series with no NaN, or with at most one number, is returned as it
    is; otherwise every NaN is replaced by the interpolated value. *)
Definition linear_interpolate_na (times : list timestamp) (ys : list value)
    : list value :=
  let pts := omap (λ ty : timestamp * value, pair ty.1 <$> ty.2) (zip times ys) in
  let n_nans := (length ys - length pts)%nat in
  if decide (n_nans = 0 ∨ length ys - 1 ≤ n_nans)%nat then ys
  else zip_with (λ t y, match y with Some _ => y | None => interp1d pts t end)
                times ys.

Definition xarray : XarrayLib := {|
  xr_Dataset := DataArray;
  xr_RawArray := DataArray;
  ds_variables := da_variable;
  ds_attrs := λ _ _, ∅;
  to_array := λ ds, ds;
  set_attrs := λ a _ _, a;
  interpolate_na := linear_interpolate_na
|}.

#[local] Existing Instance xarray.

Definition basins : list basin_id := ["b0"; "b1"; "b2"].

Definition as_attrs (da : DataArray) : AttrArray :=
  mkAttrArray (da_basin da) (da_variable da)
              ((λ m, default [] (m !! 0%nat)) <$> da_values da).

Definition scalers : @DataScalers xarray := {|
  target_scaler_t := unit;
  wrap_t_s_dict := λ _ _ _, inr (mkTsDict basins ["2000-01-01"; "2000-01-21"]);
  unify_streamflow_unit := λ ds _, inr ds;
  ScalerHub_t := (option DataArray * option DataArray * option AttrArray)%type;
  ScalerHub := λ (flow forcing attr : option xr_RawArray) _ _ _,
    inr (forcing : option DataArray, flow : option DataArray,
         as_attrs <$> (attr : option DataArray));
  hub_x := λ h, h.1.1;
  hub_y := λ h, h.1.2;
  hub_c := λ h, h.2;
  hub_target_scaler := λ _, ()
|}.

(** Cell (b, t, v) holds the number [100 b + 10 v + t], except that time
    step 3 of basin 1 is missing. *)
Definition series (ticks_per_day : Z) (variables : list string) : DataArray :=
  mkDataArray basins ((λ t, Z.of_nat t * ticks_per_day) <$> seq 0 20)
    ticks_per_day variables
    ((λ b, (λ t, imap (λ v _,
               if decide (b = 1 ∧ t = 3)%nat then None
               else Some (inject_Z (Z.of_nat (100 * b + 10 * v + t))))
              variables) <$> seq 0 20) <$> seq 0 3).

(** Two basins, four time steps, one variable; time step 2 is missing in
    both basins. *)
Definition gappy : DataArray :=
  mkDataArray ["b0"; "b1"] [0; 1; 2; 3] 1 ["et"]
    [ [[Some 1%Q]; [None]; [None]; [Some 4%Q]];
      [[None]; [Some 5%Q]; [None]; [Some 8%Q]] ].

Definition attributes : DataArray :=
  mkDataArray basins [0] 1 ["area"; "slope"]
    [ [[Some 1%Q; None]]; [[Some 2%Q; Some 5%Q]]; [[None; Some 7%Q]] ].

Definition source (ticks_per_day : Z) : @HydroDataset xarray := {|
  read_ts_xrdataset := λ _ _ cols, inr (Some (series ticks_per_day cols));
  read_attr_xrdataset := λ _ _ _, inr (Some attributes);
  read_area := λ _, inr attributes
|}.

Definition params (rho warmup_length : Z) : data_params := {|
  dp_target_cols := Some ["streamflow"];
  dp_relevant_cols := Some ["prcp"; "pet"];
  dp_constant_cols := Some ["area"; "slope"];
  dp_target_rm_nan := Some false;
  dp_relevant_rm_nan := Some true;
  dp_constant_rm_nan := Some true;
  dp_forecast_history := Some rho;
  dp_warmup_length := Some warmup_length;
  dp_batch_size := Some 50
|}.

(** The dataset [__init__] builds from them, or the exception. *)
Definition dataset (ticks_per_day rho warmup_length : Z) (loader_type : string)
    : result (@BaseDataset.self_t xarray scalers) :=
  (@BaseDataset.__init__ xarray scalers (source ticks_per_day)
     (params rho warmup_length) loader_type []).1.

End Fixture.

(** * Properties *)

(** ** Lists, ranges and dictionaries *)

Lemma mapM_result_ok {A B : Type} (g : A → result B) (h : A → B) (l : list A) :
  Forall (λ a, g a = inr (h a)) l → mapM g l = inr (h <$> l).
Proof.
  induction 1 as [|a l Ha _ IH]; simpl; [done|].
  rewrite Ha. simpl. rewrite IH. done.
Qed.

Section list_facts.
Context {A : Type}.

Lemma filter_ext_elem (P Q : A → Prop) `{!∀ x, Decision (P x)} `{!∀ x, Decision (Q x)}
    (l : list A) :
  (∀ x, x ∈ l → (P x ↔ Q x)) → filter P l = filter Q l.
Proof.
  induction l as [|a l IH]; intros HPQ; [done|].
  rewrite !filter_cons.
  assert (P a ↔ Q a) as Ha by (apply HPQ; left).
  rewrite IH by (intros x Hx; apply HPQ; by right).
  destruct (decide (P a)), (decide (Q a)); tauto.
Qed.

Lemma filter_fmap_comm {B : Type} (g : B → A) (P : A → Prop)
    `{!∀ x, Decision (P x)} (l : list B) :
  filter P (g <$> l) = g <$> filter (λ b, P (g b)) l.
Proof.
  induction l as [|b l IH]; [done|]. csimpl.
  rewrite !filter_cons, IH. by destruct (decide (P (g b))).
Qed.

Lemma size_enumerate_dict (l : list A) :
  size (LookupTable.enumerate_dict l) = length l.
Proof.
  unfold LookupTable.enumerate_dict. generalize 0%nat.
  induction l as [|a l IH]; intros start; simpl.
  - apply map_size_empty.
  - rewrite map_size_insert_None by apply map_seq_cons_disjoint.
    by rewrite IH.
Qed.

Lemma lookup_enumerate_dict (l : list A) (i : nat) :
  LookupTable.enumerate_dict l !! i = l !! i.
Proof. apply lookup_map_seq_0. Qed.
End list_facts.

(** A filter by an interval cuts an interval out of a range. *)
Lemma filter_interval_seqZ (a c lo : Z) (n : nat) :
  filter (λ f, a ≤ f ∧ f < c) (seqZ lo (Z.of_nat n))
  = seqZ (Z.max lo a) (Z.min (lo + Z.of_nat n) c - Z.max lo a).
Proof.
  induction n as [|n IH].
  - rewrite (seqZ_nil lo) by lia. rewrite seqZ_nil by lia. done.
  - rewrite seqZ_S, filter_app, IH, filter_cons, filter_nil.
    destruct (decide (a ≤ lo + Z.of_nat n ∧ lo + Z.of_nat n < c)) as [Hin|Hout].
    + replace (Z.min (lo + Z.of_nat (S n)) c - Z.max lo a)
        with ((Z.min (lo + Z.of_nat n) c - Z.max lo a) + 1) by lia.
      rewrite seqZ_app by lia. f_equal.
      rewrite seqZ_cons, seqZ_nil by lia. f_equal. lia.
    + rewrite app_nil_r.
      destruct (decide (c ≤ lo + Z.of_nat n)).
      * f_equal. lia.
      * rewrite !seqZ_nil by lia. done.
Qed.

Lemma offsets_range (rho warmup_length time_length : Z) :
  LookupTable.offsets rho warmup_length time_length
  = seqZ warmup_length
         (Z.min time_length (time_length - rho + 1) - warmup_length).
Proof.
  unfold LookupTable.offsets, py_range.
  destruct (decide (time_length - warmup_length ≤ 0)) as [Hle|Hgt].
  { rewrite !seqZ_nil by lia. done. }
  rewrite (filter_ext_elem _ (λ f, warmup_length ≤ f ∧ f < time_length - rho + 1)).
  - replace (time_length - warmup_length)
      with (Z.of_nat (Z.to_nat (time_length - warmup_length))) by lia.
    rewrite filter_interval_seqZ. f_equal; lia.
  - intros f Hf%elem_of_seqZ. lia.
Qed.

(** ** The window index *)

Section lookup_table.
Variables (basins : list basin_id) (rho warmup_length : Z) (dates : list timestamp).
Hypothesis warmup_nonneg : 0 ≤ warmup_length.

Let time_length : Z := Z.of_nat (length dates).
Let offs : list Z := LookupTable.offsets rho warmup_length time_length.

Lemma np_getitem_offset (f : Z) :
  f ∈ offs → np_getitem dates f = inr (LookupTable.date_at dates f).
Proof using warmup_nonneg.
  subst offs. rewrite offsets_range. intros Hf%elem_of_seqZ.
  unfold np_getitem, LookupTable.date_at. unfold time_length in Hf.
  destruct (decide (f < 0)) as [?|_]; [lia|]. rewrite decide_True by lia.
  destruct (lookup_lt_is_Some_2 dates (Z.to_nat f)) as [d Hd]; [lia|].
  by rewrite Hd.
Qed.

Lemma basin_entries_ok (b : basin_id) :
  LookupTable.basin_entries rho warmup_length dates b
  = inr ((λ f, (b, LookupTable.date_at dates f)) <$> offs).
Proof using warmup_nonneg.
  unfold LookupTable.basin_entries. fold time_length. fold offs.
  apply mapM_result_ok, Forall_forall. intros f Hf.
  by rewrite np_getitem_offset.
Qed.

Lemma lookup_list_ok :
  LookupTable.lookup_list basins rho warmup_length dates
  = inr (LookupTable.entries basins rho warmup_length dates).
Proof using warmup_nonneg.
  unfold LookupTable.lookup_list, LookupTable.entries.
  rewrite (mapM_result_ok _ (λ b, (λ f, (b, LookupTable.date_at dates f)) <$> offs));
    [done|].
  apply Forall_forall. intros b _. apply basin_entries_ok.
Qed.

Lemma create_ok :
  let entries := LookupTable.entries basins rho warmup_length dates in
  LookupTable.create basins rho warmup_length dates
  = inr (LookupTable.enumerate_dict entries, length entries).
Proof using warmup_nonneg.
  intros entries. unfold LookupTable.create. rewrite lookup_list_ok.
  simpl. by rewrite size_enumerate_dict.
Qed.

(** Where the entry of basin number [bi] for the [k]-th offset sits. *)
Lemma entries_lookup (bi k : nat) (b : basin_id) :
  basins !! bi = Some b → (k < length offs)%nat →
  LookupTable.entries basins rho warmup_length dates !! (bi * length offs + k)%nat
  = Some (b, LookupTable.date_at dates (warmup_length + Z.of_nat k)).
Proof.
  intros Hb Hk. unfold LookupTable.entries. fold time_length. fold offs.
  apply (join_lookup_Some_same_length' (length offs)); [|done|].
  { apply Forall_fmap, Forall_forall. intros b' _. simpl. by rewrite length_fmap. }
  exists ((λ f, (b, LookupTable.date_at dates f)) <$> offs). split.
  - by rewrite list_lookup_fmap, Hb.
  - rewrite list_lookup_fmap. subst offs. rewrite offsets_range in Hk |- *.
    rewrite length_seqZ in Hk. rewrite lookup_seqZ_lt by lia. done.
Qed.

Lemma entries_elem (b : basin_id) (d : timestamp) :
  (b, d) ∈ LookupTable.entries basins rho warmup_length dates
  ↔ b ∈ basins ∧ ∃ f, f ∈ offs ∧ d = LookupTable.date_at dates f.
Proof.
  unfold LookupTable.entries. fold time_length. fold offs.
  rewrite list_elem_of_join. split.
  - intros (l & Hd & Hl). apply list_elem_of_fmap in Hl as (b' & -> & Hb').
    apply list_elem_of_fmap in Hd as (f & [= -> ->] & Hf). eauto.
  - intros (Hb & f & Hf & ->).
    exists ((λ f, (b, LookupTable.date_at dates f)) <$> offs). split.
    + apply list_elem_of_fmap. eauto.
    + apply list_elem_of_fmap. eauto.
Qed.

Lemma length_entries :
  length (LookupTable.entries basins rho warmup_length dates)
  = (length basins * length offs)%nat.
Proof.
  unfold LookupTable.entries. fold time_length. fold offs.
  rewrite length_join, <-list_fmap_compose.
  rewrite (sum_list_fmap_same (length offs)); [done|].
  apply Forall_forall. intros b _. simpl. by rewrite length_fmap.
Qed.

(** The offsets the generator keeps are the valid offsets of the time
    axis, in ascending order. *)
Lemma offsets_valid :
  offs = Z.of_nat <$> filter (λ f : nat, warmup_length ≤ Z.of_nat f ∧
                                Z.of_nat f < time_length - rho + 1)
                            (seq 0 (length dates)).
Proof using warmup_nonneg.
  trans (filter (λ f, warmup_length ≤ f ∧ f < time_length - rho + 1)
               (Z.of_nat <$> seq 0 (length dates))); [|apply filter_fmap_comm].
  replace (Z.of_nat <$> seq 0 (length dates)) with (seqZ 0 time_length).
  - subst offs. rewrite offsets_range. unfold time_length.
    rewrite filter_interval_seqZ. f_equal; lia.
  - unfold seqZ, time_length. rewrite Nat2Z.id. apply list_fmap_ext.
    intros _ i _. lia.
Qed.

End lookup_table.

Lemma count_valid_pairs (P : nat → Prop) `{!∀ f, Decision (P f)}
    (basins : list basin_id) (fs : list nat) :
  length (filter (λ bf : basin_id * nat, P bf.2)
                 (b ← basins; (λ f, (b, f)) <$> fs))
  = (length basins * length (filter P fs))%nat.
Proof.
  induction basins as [|b basins IH]; [done|]. csimpl.
  rewrite filter_app, length_app, IH. f_equal.
  rewrite (filter_fmap_comm (λ f, (b, f)) (λ bf : basin_id * nat, P bf.2)).
  by rewrite length_fmap.
Qed.

(** The table [LookupTable.create] returns, for a warmup length that is
    not negative and a time axis without repeated time stamps. *)
Lemma lookup_table_create_spec (basins : list basin_id) (rho warmup_length : Z)
    (dates : list timestamp) :
  0 ≤ warmup_length → NoDup dates →
  let time_length := Z.of_nat (length dates) in
  let valid := λ f : nat,
    warmup_length ≤ Z.of_nat f ∧ Z.of_nat f < time_length - rho + 1 in
  let per_basin := length (filter valid (seq 0 (length dates))) in
  ∃ table : gmap nat (basin_id * timestamp),
    LookupTable.create basins rho warmup_length dates = inr (table, size table)
    ∧ (∀ b f d, b ∈ basins → dates !! f = Some d →
         ((∃ i, table !! i = Some (b, d)) ↔ valid f))
    ∧ size table
      = length (filter (λ bf : basin_id * nat, valid bf.2)
                       (b ← basins; (λ f, (b, f)) <$> seq 0 (length dates)))
    ∧ (∀ i, is_Some (table !! i) ↔ (i < size table)%nat)
    ∧ (∀ bi k b, basins !! bi = Some b → (k < per_basin)%nat →
         ∃ d, dates !! (Z.to_nat warmup_length + k)%nat = Some d
              ∧ table !! (bi * per_basin + k)%nat = Some (b, d)).
Proof.
  intros Hw Hnodup time_length valid per_basin. subst time_length.
  pose proof (offsets_valid rho warmup_length dates Hw) as Hoffs.
  fold valid in Hoffs.
  assert (length (LookupTable.offsets rho warmup_length (Z.of_nat (length dates))) = per_basin)
    as Hlen by (by rewrite Hoffs, length_fmap).
  pose proof (offsets_range rho warmup_length (Z.of_nat (length dates))) as Hrange.
  set (entries := LookupTable.entries basins rho warmup_length dates).
  assert (size (LookupTable.enumerate_dict entries) = length entries)
    as Hsize by apply size_enumerate_dict.
  exists (LookupTable.enumerate_dict entries). split; [|split; [|split; [|split]]].
  - rewrite Hsize. apply (create_ok basins rho warmup_length dates Hw).
  - intros b f d Hb Hd.
    assert ((∃ i, LookupTable.enumerate_dict entries !! i = Some (b, d))
            ↔ (b, d) ∈ entries) as ->.
    { rewrite list_elem_of_lookup. by setoid_rewrite lookup_enumerate_dict. }
    unfold entries. rewrite entries_elem. split.
    + intros (_ & fz & Hfz & ->). rewrite Hoffs in Hfz.
      apply list_elem_of_fmap in Hfz as (f' & -> & [Hv Hseq]%list_elem_of_filter).
      unfold LookupTable.date_at in Hd. rewrite Nat2Z.id in Hd.
      destruct (dates !! f') as [d'|] eqn:Hd'.
      * simpl in Hd. assert (f = f') as -> by eauto using NoDup_lookup. done.
      * apply lookup_ge_None in Hd'. apply elem_of_seq in Hseq. lia.
    + intros Hv. split; [done|]. exists (Z.of_nat f). split.
      * rewrite Hoffs. apply list_elem_of_fmap. exists f. split; [done|].
        apply list_elem_of_filter. split; [done|].
        apply elem_of_seq. apply lookup_lt_Some in Hd. lia.
      * unfold LookupTable.date_at. by rewrite Nat2Z.id, Hd.
  - rewrite Hsize. unfold entries. rewrite length_entries, Hlen.
    symmetry. subst per_basin valid.
    pose proof (count_valid_pairs
             (λ f : nat, warmup_length ≤ Z.of_nat f
                         ∧ Z.of_nat f < Z.of_nat (length dates) - rho + 1)
             basins (seq 0 (length dates))) as Hc.
    exact Hc.
  - intros i. rewrite lookup_enumerate_dict, Hsize. apply lookup_lt_is_Some.
  - intros bi k b Hb Hk.
    assert (Z.of_nat k < Z.min (Z.of_nat (length dates)) (Z.of_nat (length dates) - rho + 1) - warmup_length)
      as Hkz by (rewrite <-Hlen, Hrange, length_seqZ in Hk; lia).
    destruct (lookup_lt_is_Some_2 dates (Z.to_nat warmup_length + k)) as [d Hd].
    { lia. }
    exists d. split; [done|].
    rewrite lookup_enumerate_dict. unfold entries.
    rewrite <-Hlen at 1.
    rewrite (entries_lookup basins rho warmup_length dates bi k b Hb)
      by (by rewrite Hlen).
    do 2 f_equal. unfold LookupTable.date_at.
    replace (Z.to_nat (warmup_length + Z.of_nat k))
      with (Z.to_nat warmup_length + k)%nat by lia.
    by rewrite Hd.
Qed.

(** C1: with a warmup length that is not negative and a time axis of [y]
    without repeated time stamps, [_create_lookup_table] returns a table
    that holds the pair (b, t[f]) of a basin b and an offset f exactly when
    warmup_length <= f < time_length - rho + 1; its size, which is
    [num_samples], is the number of such (b, f) pairs; its keys are
    0 .. size-1; and the key of the k-th valid offset of the basin at
    position bi is bi * (valid offsets per basin) + k: basin-major, time
    ascending. *)
Theorem create_lookup_table_spec (ts : t_s_dict) (rho warmup_length : Z)
    (y : DataArray) :
  0 ≤ warmup_length → NoDup (da_time y) →
  let basins := sites_id ts in
  let dates := da_time y in
  let time_length := Z.of_nat (length dates) in
  let valid := λ f : nat,
    warmup_length ≤ Z.of_nat f ∧ Z.of_nat f < time_length - rho + 1 in
  let per_basin := length (filter valid (seq 0 (length dates))) in
  ∃ table : gmap nat (basin_id * timestamp),
    BaseDataset._create_lookup_table ts rho warmup_length (Some y)
    = inr (table, size table)
    ∧ (∀ b f d, b ∈ basins → dates !! f = Some d →
         ((∃ i, table !! i = Some (b, d)) ↔ valid f))
    ∧ size table
      = length (filter (λ bf : basin_id * nat, valid bf.2)
                       (b ← basins; (λ f, (b, f)) <$> seq 0 (length dates)))
    ∧ (∀ i, is_Some (table !! i) ↔ (i < size table)%nat)
    ∧ (∀ bi k b, basins !! bi = Some b → (k < per_basin)%nat →
         ∃ d, dates !! (Z.to_nat warmup_length + k)%nat = Some d
              ∧ table !! (bi * per_basin + k)%nat = Some (b, d)).
Proof.
  intros Hw Hnodup. unfold BaseDataset._create_lookup_table.
  exact (lookup_table_create_spec (sites_id ts) rho warmup_length (da_time y)
           Hw Hnodup).
Qed.

Lemma create_lookup_table_spec_witness :
  0 ≤ 1 ∧ NoDup (da_time Fixture.gappy) ∧
  ∃ table : gmap nat (basin_id * timestamp),
    BaseDataset._create_lookup_table (mkTsDict ["b0"; "b1"] []) 2 1
      (Some Fixture.gappy)
    = inr (table, size table)
    ∧ size table = 4%nat
    ∧ table !! 3%nat = Some ("b1", 2).
Proof.
  assert (NoDup (da_time Fixture.gappy)) as Hnodup
    by (apply (bool_decide_unpack _); vm_compute; exact I).
  split; [lia|]. split; [exact Hnodup|].
  destruct (create_lookup_table_spec (mkTsDict ["b0"; "b1"] []) 2 1 Fixture.gappy)
    as (table & Hcreate & _ & Hsize & _ & Horder); [lia|exact Hnodup|].
  exists table. split; [exact Hcreate|]. split.
  - rewrite Hsize. vm_compute. reflexivity.
  - destruct (Horder 1%nat 1%nat "b1") as (d & Hd & Hkey);
      [reflexivity|vm_compute; lia|].
    vm_compute in Hd. injection Hd as <-. exact Hkey.
Defined.

(** ** The gap filler: errors and the no-op cases *)

Section gap_filler_errors.
Context `{!XarrayLib}.

Lemma fill_gaps_known (a : DataArray) (name : string) :
  name ∈ GapFiller.known_policies →
  ∃ a', GapFiller._fill_gaps_da (Some a) (Some name) = inr (Some a').
Proof.
  unfold GapFiller.known_policies. rewrite !elem_of_cons, elem_of_nil.
  intros [->|[->|[->|[]]]]; simpl; eauto.
Qed.

Lemma fill_gaps_unknown (a : DataArray) (name : string) :
  name ∉ GapFiller.known_policies →
  GapFiller._fill_gaps_da (Some a) (Some name)
  = inl (NotImplementedError ("fill_nan " +:+ name +:+ " not implemented")).
Proof.
  unfold GapFiller.known_policies. rewrite !not_elem_of_cons. intros (? & ? & ? & _).
  simpl. by rewrite !decide_False.
Qed.

(** C7: [_fill_gaps_da] raises [NotImplementedError] exactly when the policy
    name is set, the series is present and the name is none of interpolate,
    mean, et_ssm_ignore; it raises nothing else; with the policy unset, or
    with the series absent, it returns the series as it got it. *)
Theorem fill_gaps_not_implemented_iff (da : option DataArray)
    (fill_nan : option string) :
  ((∃ msg, GapFiller._fill_gaps_da da fill_nan = inl (NotImplementedError msg))
   ↔ (∃ name a, fill_nan = Some name ∧ da = Some a ∧ name ∉ GapFiller.known_policies))
  ∧ (∀ e, GapFiller._fill_gaps_da da fill_nan = inl e →
          ∃ msg, e = NotImplementedError msg)
  ∧ GapFiller._fill_gaps_da da None = inr da
  ∧ GapFiller._fill_gaps_da None fill_nan = inr None.
Proof.
  split; [|split; [|split]].
  - split.
    + intros [msg Hmsg]. destruct fill_nan as [name|], da as [a|]; try done.
      exists name, a. split; [done|]. split; [done|]. intros Hknown.
      destruct (fill_gaps_known a name Hknown) as [a' Ha']. congruence.
    + intros (name & a & -> & -> & Hname). rewrite fill_gaps_unknown by done. eauto.
  - intros e He. destruct fill_nan as [name|], da as [a|]; try done.
    destruct (decide (name ∈ GapFiller.known_policies)) as [Hknown|Hunknown].
    + destruct (fill_gaps_known a name Hknown) as [a' Ha']. congruence.
    + rewrite fill_gaps_unknown in He by done. injection He as <-. eauto.
  - by destruct da.
  - by destruct fill_nan.
Qed.

End gap_filler_errors.

(** ** Construction *)

Section construction.
Context `{!XarrayLib, !DataScalers}.

Lemma create_size (basins : list basin_id) (rho warmup_length : Z)
    (dates : list timestamp) (table : gmap nat (basin_id * timestamp)) (n : nat) :
  LookupTable.create basins rho warmup_length dates = inr (table, n) →
  n = size table.
Proof.
  unfold LookupTable.create. destruct (LookupTable.lookup_list _ _ _ _); [done|].
  simpl. by intros [= <- <-].
Qed.

(** What a successful [_load_data] has stored. *)
Lemma load_data_stores (data_source : HydroDataset) (data_params : data_params)
    (loader_type : string) (tr tr' : list source_call) (self : BaseDataset.self_t) :
  BaseDataset._load_data data_source data_params loader_type tr = (inr self, tr') →
  BaseDataset.self_train_mode self = bool_decide (loader_type = "train")
  ∧ BaseDataset.self_num_samples self = size (BaseDataset.self_lookup_table self)
  ∧ BaseDataset.self_data_params self = data_params
  ∧ dp_forecast_history data_params = Some (BaseDataset.self_rho self)
  ∧ dp_warmup_length data_params = Some (BaseDataset.self_warmup_length self)
  ∧ BaseDataset._create_lookup_table
      (BaseDataset.self_t_s_dict self) (BaseDataset.self_rho self)
      (BaseDataset.self_warmup_length self) (BaseDataset.self_y self)
    = inr (BaseDataset.self_lookup_table self, BaseDataset.self_num_samples self).
Proof.
  unfold BaseDataset._load_data, mbind, prog_bind, mret, prog_ret, lift, call.
  intros Hload.
  repeat (case_match; simplify_eq; try done).
  all: simpl.
  all: match goal with
       | H : BaseDataset._create_lookup_table _ _ _ _ = inr ?p |- _ =>
           destruct p as [table n]; simpl; pose proof H as Hcreate;
           unfold BaseDataset._create_lookup_table in H
       end.
  all: repeat match goal with
         | H : dict_get ?o = inr _ |- _ =>
             destruct o; unfold dict_get, mret, result_ret in H; simplify_eq/=
         end.
  all: repeat split; try done.
  all: case_match; simplify_eq/=; eauto using create_size.
Qed.

(** C8: with a [loader_type] other than train, valid, test, construction
    raises [ValueError] and the trace of data-source calls
    ([read_ts_xrdataset], [read_attr_xrdataset], [read_area]) is the one it
    started with: no call was made. This holds for [BaseDataset] and for
    the three classes that inherit its constructor. *)
Theorem init_invalid_loader_type (data_source : HydroDataset)
    (data_params : data_params) (loader_type : string) (tr : list source_call) :
  loader_type ∉ ["train"; "valid"; "test"] →
  ∃ msg,
    BaseDataset.__init__ data_source data_params loader_type tr
    = (inl (ValueError msg), tr)
    ∧ BasinSingleFlowDataset.__init__ data_source data_params loader_type tr
      = (inl (ValueError msg), tr)
    ∧ BasinFlowDataset.__init__ data_source data_params loader_type tr
      = (inl (ValueError msg), tr)
    ∧ KuaiDataset.__init__ data_source data_params loader_type tr
      = (inl (ValueError msg), tr).
Proof.
  intros Hbad.
  unfold BasinSingleFlowDataset.__init__, BasinFlowDataset.__init__,
    KuaiDataset.__init__, BaseDataset.__init__.
  rewrite decide_False by done. unfold lift, raise. eauto.
Qed.

(** With a valid [loader_type], construction is [_load_data]. *)
Lemma init_valid_loader_type (data_source : HydroDataset)
    (data_params : data_params) (loader_type : string) :
  loader_type ∈ ["train"; "valid"; "test"] →
  BaseDataset.__init__ data_source data_params loader_type
  = BaseDataset._load_data data_source data_params loader_type.
Proof. intros Hok. unfold BaseDataset.__init__. by rewrite decide_True. Qed.

(** C6: on a dataset that [BasinFlowDataset.__init__] has constructed,
    [__len__] is the size of the lookup table when the dataset was built
    for training (loader type train), and the number of basins otherwise,
    whatever the size of the table. *)
Theorem basin_flow_len (data_source : HydroDataset) (data_params : data_params)
    (loader_type : string) (tr tr' : list source_call) (self : BaseDataset.self_t) :
  BasinFlowDataset.__init__ data_source data_params loader_type tr = (inr self, tr') →
  BaseDataset.self_train_mode self = bool_decide (loader_type = "train")
  ∧ BasinFlowDataset.__len__ self
    = if BaseDataset.self_train_mode self
      then size (BaseDataset.self_lookup_table self)
      else length (sites_id (BaseDataset.self_t_s_dict self)).
Proof.
  unfold BasinFlowDataset.__init__, BaseDataset.__init__. intros Hinit.
  destruct (decide (loader_type ∈ ["train"; "valid"; "test"])); [|done].
  apply load_data_stores in Hinit as (Hmode & Hnum & _).
  split; [done|]. unfold BasinFlowDataset.__len__. by rewrite Hnum.
Qed.

(** ** Sample extraction *)

(** C9: [BaseDataset.__getitem__] leaves the dataset as it found it,
    arrays [x], [y], [c] and lookup table included, for every sample id,
    whether it returns a sample or raises. *)
Theorem getitem_preserves_self (item : Z) (self : BaseDataset.self_t) :
  (BaseDataset.__getitem__ item self).2 = self.
Proof.
  unfold BaseDataset.__getitem__, mbind, prog_bind, mret, prog_ret,
    getattr, lift.
  repeat (case_match; simplify_eq/=; try done).
Qed.

End construction.

(** ** [KuaiDataset.__len__]: the shrink loop *)

Section shrink_loop.
Variables (rho ngrid nt : Z).

Lemma int_div10_abs (b : Z) : b ≠ 0 → Z.abs (KuaiDataset.int_div10 b) < Z.abs b.
Proof.
  intros Hb. unfold KuaiDataset.int_div10.
  rewrite <-(Z.quot_abs b 10) by lia. apply Z.quot_lt; lia.
Qed.

(** More fuel does not change the outcome of a loop that has ended. *)
Lemma shrink_loop_more_fuel (fuel fuel' : nat) (b : Z) (r : Z * list Z) :
  KuaiDataset.shrink_loop fuel rho ngrid nt b = Some r → (fuel ≤ fuel')%nat →
  KuaiDataset.shrink_loop fuel' rho ngrid nt b = Some r.
Proof.
  revert fuel' b r. induction fuel as [|fuel IH]; intros fuel' b r; [done|].
  intros Hrun Hle. destruct fuel' as [|fuel']; [lia|]. simpl in *.
  destruct (decide (b * rho >= ngrid * nt)); [|done].
  destruct (KuaiDataset.shrink_loop fuel rho ngrid nt (KuaiDataset.int_div10 b))
    as [r'|] eqn:Hr'; [|done].
  rewrite (IH fuel' _ r' Hr') by lia. done.
Qed.

(** The loop ends with its condition false. *)
Lemma shrink_loop_exit (fuel : nat) (b : Z) (r : Z * list Z) :
  KuaiDataset.shrink_loop fuel rho ngrid nt b = Some r →
  r.1 * rho < ngrid * nt.
Proof.
  revert b r. induction fuel as [|fuel IH]; intros b r; [done|]. simpl.
  destruct (decide (b * rho >= ngrid * nt)).
  - destruct (KuaiDataset.shrink_loop fuel rho ngrid nt (KuaiDataset.int_div10 b))
      as [r'|] eqn:Hr'; [|done].
    intros [= <-]. simpl. eauto.
  - intros [= <-]. simpl. lia.
Qed.

Hypothesis data_nonempty : ngrid * nt >= 1.

(** Every pass makes the batch size smaller in absolute value, and a batch
    size of zero ends the loop: [|batch_size| + 1] tests suffice. *)
Lemma shrink_loop_enough_fuel (fuel : nat) (b : Z) :
  Z.abs b < Z.of_nat fuel →
  is_Some (KuaiDataset.shrink_loop fuel rho ngrid nt b).
Proof using data_nonempty.
  revert b. induction fuel as [|fuel IH]; intros b Hfuel; [lia|]. simpl.
  destruct (decide (b * rho >= ngrid * nt)) as [Hcond|]; [|by eexists].
  assert (b ≠ 0) as Hb by (intros ->; lia).
  destruct (IH (KuaiDataset.int_div10 b)) as [r Hr].
  { pose proof (int_div10_abs b Hb). lia. }
  rewrite Hr. by eexists.
Qed.

End shrink_loop.

(** C10: when ngrid * nt >= 1, the loop
    [while batch_size * rho >= ngrid * nt: batch_size = int(batch_size / 10)]
    ends: [|batch_size| + 1] tests of its condition give a result, more
    tests give the same one, the condition is false at exit, and the batch
    size handed to the computation of [n_iter_ep] after
    [max(batch_size, 1)] is at least 1. *)
Theorem shrink_loop_terminates (rho ngrid nt batch_size : Z) :
  ngrid * nt >= 1 →
  ∃ (final : Z) (assigned : list Z),
    let fuel := S (Z.abs_nat batch_size) in
    (∀ fuel', (fuel ≤ fuel')%nat →
       KuaiDataset.shrink_loop fuel' rho ngrid nt batch_size = Some (final, assigned)
       ∧ KuaiDataset.shrunk_batch_size fuel' rho ngrid nt batch_size
         = Some (Z.max final 1))
    ∧ final * rho < ngrid * nt
    ∧ 1 ≤ Z.max final 1.
Proof.
  intros Hdata.
  destruct (shrink_loop_enough_fuel rho ngrid nt Hdata
              (S (Z.abs_nat batch_size)) batch_size) as [[final assigned] Hrun];
    [lia|].
  exists final, assigned. simpl. split; [|split].
  - intros fuel' Hfuel'.
    pose proof (shrink_loop_more_fuel _ _ _ _ _ _ _ Hrun Hfuel') as Hrun'.
    split; [done|]. unfold KuaiDataset.shrunk_batch_size. by rewrite Hrun'.
  - apply (shrink_loop_exit _ _ _ _ _ _ Hrun).
  - lia.
Qed.

Lemma shrink_loop_terminates_witness :
  10 * 20 >= 1 ∧
  ∃ final assigned,
    KuaiDataset.shrink_loop 51 10 10 20 50 = Some (final, assigned)
    ∧ 1 ≤ Z.max final 1.
Proof.
  split; [lia|].
  destruct (shrink_loop_terminates 10 10 20 50) as (final & assigned & Hrun & _ & Hmax);
    [lia|].
  exists final, assigned. split; [|exact Hmax].
  apply (Hrun 51%nat). vm_compute. lia.
Defined.

(** ** [KuaiDataset.__len__]: the number of iterations *)

Section n_iter.
Local Open Scope R_scope.

Lemma np_ceil_between (r : R) (z : Z) :
  IZR z - 1 < r → r < IZR z → KuaiDataset.np_ceil r = z.
Proof.
  intros Hlo Hhi. unfold KuaiDataset.np_ceil.
  assert (1 - z = up (- r))%Z as <-; [|lia].
  apply tech_up; rewrite minus_IZR; lra.
Qed.

Lemma ln_ratio_pow_bounds (a b c : Z) (n : nat) :
  (0 < b < a)%Z → (1 < c)%Z →
  (a ^ Z.of_nat n < c * b ^ Z.of_nat n)%Z →
  (c * b ^ Z.of_nat (S n) < a ^ Z.of_nat (S n))%Z →
  INR n < ln (/ IZR c) / ln (IZR b / IZR a) < INR (S n).
Proof.
  intros [Hb Hba] Hc Hlo Hhi.
  assert (0 < IZR a) as Ha' by (apply IZR_lt; lia).
  assert (0 < IZR b) as Hb' by (by apply IZR_lt).
  assert (0 < IZR c) as Hc' by (apply IZR_lt; lia).
  assert (0 < IZR a / IZR b) as Hab by (apply Rdiv_lt_0_compat; lra).
  assert (IZR b / IZR a = / (IZR a / IZR b)) as -> by (field; lra).
  rewrite !ln_Rinv by done.
  assert (0 < ln (IZR a / IZR b)) as Hln.
  { rewrite <-ln_1. apply ln_increasing; [lra|].
    apply (Rmult_lt_reg_r (IZR b)); [done|]. field_simplify; [|lra].
    apply IZR_lt in Hba. lra. }
  replace (- ln (IZR c) / - ln (IZR a / IZR b))
    with (ln (IZR c) / ln (IZR a / IZR b)) by (field; lra).
  assert (∀ m : nat, (IZR a / IZR b) ^ m = IZR (a ^ Z.of_nat m) / IZR (b ^ Z.of_nat m))
    as Hpow.
  { intros m. rewrite <-!pow_IZR. unfold Rdiv. rewrite Rpow_mult_distr.
    by rewrite pow_inv. }
  assert (∀ m : nat, 0 < IZR (b ^ Z.of_nat m)) as Hbm.
  { intros m. apply IZR_lt. lia. }
  assert (∀ m : nat, IZR (a ^ Z.of_nat m) / IZR (b ^ Z.of_nat m) * IZR (b ^ Z.of_nat m)
                      = IZR (a ^ Z.of_nat m)) as Hcancel.
  { intros m. field. specialize (Hbm m). lra. }
  assert (ln (IZR c) / ln (IZR a / IZR b) * ln (IZR a / IZR b) = ln (IZR c))
    as Hcancel_ln by (field; lra).
  split.
  - apply (Rmult_lt_reg_r (ln (IZR a / IZR b))); [done|].
    rewrite Hcancel_ln, <-ln_pow by done.
    apply ln_increasing; [by apply pow_lt|]. rewrite Hpow.
    apply (Rmult_lt_reg_r (IZR (b ^ Z.of_nat n))); [done|].
    rewrite Hcancel, <-mult_IZR. by apply IZR_lt.
  - apply (Rmult_lt_reg_r (ln (IZR a / IZR b))); [done|].
    rewrite Hcancel_ln, <-ln_pow by done.
    apply ln_increasing; [done|]. rewrite Hpow.
    apply (Rmult_lt_reg_r (IZR (b ^ Z.of_nat (S n)))); [done|].
    rewrite Hcancel, <-mult_IZR. by apply IZR_lt.
Qed.

End n_iter.

Lemma n_iter_real_example :
  (918 < ln (/ 100) / ln (199 / 200) < 919)%R.
Proof.
  pose proof (ln_ratio_pow_bounds 200 199 100 918) as Hbounds.
  rewrite !INR_IZR_INZ in Hbounds.
  apply Hbounds; [lia|lia|by vm_compute|by vm_compute].
Qed.

(** C3: for ngrid = 100, nt = 1000, rho = 10, warmup_length = 0 and
    batch_size = 50 the shrink loop ends at its first test without
    assigning any batch size (so none below 1), the batch size stays 50,
    and n_iter_ep = ceil(ln(0.01) / ln(1 - 50 * 10 / (100 * (1000 - 0))))
    is the integer 919, which is at least 1; [__len__] reports
    919 * 50 = 45950. *)
Theorem kuai_len_example :
  (∀ fuel, KuaiDataset.shrink_loop (S fuel) 10 100 1000 50 = Some (50, []))
  ∧ (∀ fuel, KuaiDataset.shrunk_batch_size (S fuel) 10 100 1000 50 = Some 50)
  ∧ KuaiDataset.np_ceil (ln (1 / 100) / ln (1 - 50 * 10 / (100 * (1000 - 0))))%R = 919
  ∧ KuaiDataset.n_iter_ep 50 10 0 100 1000 = inr 919
  ∧ (∀ fuel, KuaiDataset.virtual_length (S fuel) 50 10 0 100 1000
             = Some (inr 45950)).
Proof.
  pose proof n_iter_real_example as [Hlo Hhi].
  assert (KuaiDataset.n_iter_ep 50 10 0 100 1000 = inr 919) as Hn.
  { unfold KuaiDataset.n_iter_ep.
    rewrite decide_False by lia. rewrite decide_False by lia.
    assert (((1 - inject_Z (50 * 10) / inject_Z 100 / inject_Z (1000 - 0)) ?= 0)%Q = Gt)
      as -> by reflexivity.
    assert (((1 - inject_Z (50 * 10) / inject_Z 100 / inject_Z (1000 - 0)) ?= 1)%Q = Lt)
      as -> by reflexivity.
    unfold mret, result_ret. f_equal.
    replace (1000 - 0) with 1000 by lia.
    replace (1 / 100)%R with (/ 100)%R by lra.
    replace (1 - 50 * 10 / 100 / 1000)%R with (199 / 200)%R by lra.
    apply np_ceil_between; simpl; lra. }
  split; [|split; [|split; [|split]]].
  - intros fuel. reflexivity.
  - intros fuel. reflexivity.
  - replace (1 / 100)%R with (/ 100)%R by lra.
    replace (1 - 50 * 10 / (100 * (1000 - 0)))%R with (199 / 200)%R by lra.
    apply np_ceil_between; simpl; lra.
  - exact Hn.
  - intros fuel. unfold KuaiDataset.virtual_length.
    replace (KuaiDataset.shrunk_batch_size (S fuel) 10 100 1000 50) with (Some 50)
      by reflexivity.
    lazymatch goal with
    | |- Some 50 ≫= ?k = _ => change (k 50 = Some (inr 45950))
    end.
    cbv beta. rewrite Hn. reflexivity.
Qed.

(** ** The gap filler: [et_ssm_ignore] *)

Section et_ssm_ignore.
Context `{!XarrayLib}.







End et_ssm_ignore.


(** ** The gap filler: [mean] *)

Section mean_policy.
Context `{!XarrayLib}.












End mean_policy.


(** ** Sample extraction: the input window *)

Section input_window.
Context `{!XarrayLib, !DataScalers}.

(** With static attributes, a returned input window has as many rows as
    the attribute rows [np.tile(c, (seq_length, 1))] makes: [rho], not
    [warmup_length + rho]. *)
Lemma getitem_input_rows (item : Z) (self : BaseDataset.self_t) (c : AttrArray)
    (x y : matrix) :
  BaseDataset.self_c self = Some c → (0 < length (aa_variable c))%nat →
  (BaseDataset.__getitem__ item self).1 = inr (x, y) →
  Z.of_nat (length x) = BaseDataset.self_rho self.
Proof.
  intros Hc Hvars. unfold BaseDataset.__getitem__, mbind, prog_bind, mret,
    prog_ret, getattr, lift. cbv beta iota zeta.
  match goal with
  | |- context [if decide (0 ≤ item) then ?a else ?b] =>
      destruct (if decide (0 ≤ item) then a else b) as [?|[basin time]]; [done|]
  end.
  cbv beta iota zeta. rewrite Hc. cbv beta iota. case_decide; [|lia].
  repeat (case_match; simplify_eq/=; try done).
  intros [= <- <-].
  match goal with
  | H : result_bind _ _ _ (BaseDataset.attrs_row _ _) = inr _ |- _ =>
      unfold result_bind in H;
      destruct (BaseDataset.attrs_row c basin) as [?|row]; [done|];
      destruct (Numpy.tile_rows row (BaseDataset.self_rho self)) as [?|tiled] eqn:Htile;
        [done|];
      unfold Numpy.concatenate_axis1 in H; case_decide; simplify_eq/=
  end.
  unfold Numpy.tile_rows in Htile. case_decide; simplify_eq/=.
  unfold mret, result_ret in *. simplify_eq.
  rewrite length_zip_with. rewrite length_replicate in *. lia.
Qed.

End input_window.

(** C2, evaluated: three basins, twenty daily steps, two dynamic variables,
    two static attributes, rho = 5, warmup_length = 2, sample 0. On a time
    axis counted in days the window of [x] has 7 rows, the tiled attributes
    have 5, and [np.concatenate] raises. On a time axis counted in
    nanoseconds the timedelta without unit is 2 ns, the window of [x] has 5
    rows, and the sample returned has the shape (5, 4), not (7, 4). *)
Theorem getitem_warmup_window :
  (∃ self,
      Fixture.dataset 1 5 2 "train" = inr self
      ∧ BaseDataset.self_lookup_table self !! 0%nat = Some ("b0", 2)
      ∧ ∃ msg, (BaseDataset.__getitem__ 0 self).1 = inl (ValueError msg))
  ∧ (∃ self x y,
      Fixture.dataset 86400000000000 5 2 "train" = inr self
      ∧ BaseDataset.self_warmup_length self = 2
      ∧ BaseDataset.self_rho self = 5
      ∧ (BaseDataset.__getitem__ 0 self).1 = inr (x, y)
      ∧ Numpy.has_shape x 5 (2 + 2)
      ∧ ¬ Numpy.has_shape x (2 + 5) (2 + 2)).
Proof.
  split.
  - eexists. split; [vm_compute; reflexivity|]. split; [vm_compute; reflexivity|].
    eexists. vm_compute. reflexivity.
  - eexists _, _, _. split; [vm_compute; reflexivity|].
    split; [reflexivity|]. split; [reflexivity|].
    split; [vm_compute; reflexivity|]. split.
    + split; [reflexivity|]. repeat constructor.
    + intros [Hrows _]. vm_compute in Hrows. discriminate.
Qed.

(** ** Concrete runs *)

(** The end-to-end example: 3 basins, 20 daily steps, rho = 5,
    warmup_length = 2 give 14 windows per basin and 42 in all; sample 0 is
    the earliest window of the first basin, and in evaluation mode the
    length is the number of basins. *)
Lemma basin_flow_len_witness :
  ∃ self tr,
    @BasinFlowDataset.__init__ Fixture.xarray Fixture.scalers (Fixture.source 1)
       (Fixture.params 5 2) "valid" [] = (inr self, tr)
    ∧ BaseDataset.self_train_mode self = false
    ∧ size (BaseDataset.self_lookup_table self) = 42%nat
    ∧ BaseDataset.self_lookup_table self !! 0%nat = Some ("b0", 2)
    ∧ BasinFlowDataset.__len__ self = 3%nat.
Proof.
  destruct (@BasinFlowDataset.__init__ Fixture.xarray Fixture.scalers (Fixture.source 1)
              (Fixture.params 5 2) "valid" []) as [[e|self] tr] eqn:Hinit.
  { vm_compute in Hinit. discriminate Hinit. }
  exists self, tr. split; [reflexivity|].
  destruct (basin_flow_len _ _ _ _ _ _ Hinit) as [Hmode Hlen].
  rewrite Hlen, Hmode. vm_compute in Hinit. injection Hinit as <- <-.
  repeat split; vm_compute; reflexivity.
Defined.

Lemma init_invalid_loader_type_witness :
  ("bogus" ∉ ["train"; "valid"; "test"]) ∧
  ∃ msg, @BaseDataset.__init__ Fixture.xarray Fixture.scalers (Fixture.source 1)
           (Fixture.params 5 2) "bogus" [] = (inl (ValueError msg), []).
Proof.
  assert ("bogus" ∉ ["train"; "valid"; "test"]) as Hbad
    by (apply (bool_decide_unpack _); vm_compute; exact I).
  split; [exact Hbad|].
  destruct (@init_invalid_loader_type Fixture.xarray Fixture.scalers
              (Fixture.source 1) (Fixture.params 5 2) "bogus" [] Hbad)
    as (msg & Hinit & _).
  exists msg. exact Hinit.
Defined.

(** With a valid loader type the data source is called: the trace of a
    successful construction. *)
Example init_train_calls :
  (@BaseDataset.__init__ Fixture.xarray Fixture.scalers (Fixture.source 1)
     (Fixture.params 5 2) "train" []).2
  = [ Call_read_ts_xrdataset Fixture.basins ["2000-01-01"; "2000-01-21"] ["streamflow"];
      Call_read_ts_xrdataset Fixture.basins ["2000-01-01"; "2000-01-21"] ["prcp"; "pet"];
      Call_read_attr_xrdataset Fixture.basins ["area"; "slope"];
      Call_read_area Fixture.basins ].
Proof. vm_compute. reflexivity. Qed.

(** A negative warmup length makes [dates[f]] count from the end of the
    time axis: sample 0 is then the last time step. *)
Example lookup_table_negative_warmup :
  ∃ table n,
    LookupTable.create ["a"] 2 (-1) [10; 11; 12; 13; 14] = inr (table, n)
    ∧ table !! 0%nat = Some ("a", 14).
Proof. eexists _, _. split; vm_compute; reflexivity. Qed.

(** With no data ([ngrid * nt = 0]) a batch size of zero never leaves the
    loop, whatever the fuel. *)
Example shrink_loop_no_data (fuel : nat) :
  KuaiDataset.shrink_loop fuel 10 0 1000 0 = None.
Proof.
  induction fuel as [|fuel IH]; [done|].
  cbn [KuaiDataset.shrink_loop]. rewrite decide_True by lia.
  change (KuaiDataset.int_div10 0) with 0. by rewrite IH.
Qed.
